(** * chemeng-ai-tutor: the chat relay of [chatbot_server.py]

    A shallow embedding of the Flask server in [src/chatbot_server.py]:
    the two views [chat] and [health_check], the helper [query_ollama],
    and the part of the Python runtime they rely on (JSON values as
    [request.json] and [response.json()] produce them, truthiness, [len],
    subscripting, slicing, [str.strip], [str.join]).

    Python strings are sequences of Unicode code points, so a string is a
    [list N].  Exceptions are values of an error monad; every call of the
    outbound HTTP client [requests] is recorded in a trace, so that "no
    backend call is made" is a statement about the trace.  The calls of
    [logger] write to the log only and are left out, except for the
    expressions that their arguments evaluate. *)

From Stdlib Require Import ZArith NArith String Ascii List QArith SpecFloat Lia.
From stdpp Require Import base option list gmap.

Local Close Scope Q_scope.
Local Open Scope Z_scope.

(** ** Python strings *)

Abbreviation pystr := (list N).

(** An ASCII literal of the source, as a Python string. *)
Definition py (s : string) : pystr := N_of_ascii <$> list_ascii_of_string s.
Arguments py s%_string.

(** The line feed [\n] and the double quote, which a literal cannot hold. *)
Definition LF : pystr := [10%N].
Definition DQUOTE : pystr := [34%N].

(** [str.isspace] on one code point (CPython's [_PyUnicode_IsWhitespace]):
    the characters that [str.strip()] without argument removes. *)
Definition isspace (c : N) : bool :=
  ((0x09 <=? c) && (c <=? 0x0D) || (0x1C <=? c) && (c <=? 0x20)
   || (c =? 0x85) || (c =? 0xA0) || (c =? 0x1680)
   || (0x2000 <=? c) && (c <=? 0x200A)
   || (c =? 0x2028) || (c =? 0x2029) || (c =? 0x202F) || (c =? 0x205F)
   || (c =? 0x3000))%N.

Fixpoint lstrip (s : pystr) : pystr :=
  match s with
  | c :: s' => if isspace c then lstrip s' else s
  | [] => []
  end.

Definition rstrip (s : pystr) : pystr := reverse (lstrip (reverse s)).

(** [s.strip()] *)
Definition strip (s : pystr) : pystr := rstrip (lstrip s).

(** [sep.join(l)] *)
Fixpoint join (sep : pystr) (l : list pystr) : pystr :=
  match l with
  | [] => []
  | [x] => x
  | x :: l' => x ++ sep ++ join sep l'
  end.

(** ** JSON values, as Python objects

    What [request.json] and [response.json()] return: [None], [bool],
    [int], [float], [str], [list] and [dict] with string keys. *)

#[warnings="-register-all"]
Inductive json : Type :=
| JNull
| JBool (b : bool)
| JInt (n : Z)
| JFloat (x : spec_float)
| JStr (s : pystr)
| JList (l : list json)
| JDict (d : gmap pystr json).

(** ** Exceptions and the error monad *)

Inductive exn : Type :=
| AttributeError
| TypeError
| KeyError
| BadRequest             (* werkzeug: the request body does not decode *)
| UnsupportedMediaType   (* werkzeug: the request is not declared as JSON *)
| Timeout                (* requests.exceptions.Timeout *)
| ConnectionError        (* requests.exceptions.ConnectionError *)
| JSONDecodeError.       (* requests.exceptions.JSONDecodeError *)

Inductive result (A : Type) : Type :=
| Ok (a : A)
| Raise (e : exn).
Arguments Ok {A} a.
Arguments Raise {A} e.

#[global] Instance result_ret : MRet result := λ A a, Ok a.
#[global] Instance result_bind : MBind result := λ A B f m,
  match m with
  | Ok a => f a
  | Raise e => Raise e
  end.

(** ** Builtins on JSON values *)

(** [bool(v)], the test of [if v:] and of [v and ...]. *)
Definition truthy (v : json) : bool :=
  match v with
  | JNull => false
  | JBool b => b
  | JInt n => negb (n =? 0)
  | JFloat x => match x with S754_zero _ => false | _ => true end
  | JStr s => negb (Nat.eqb (length s) 0)
  | JList l => negb (Nat.eqb (length l) 0)
  | JDict d => negb (Nat.eqb (size d) 0)
  end.

(** [len(v)]: a [TypeError] on [None], booleans and numbers. *)
Definition len (v : json) : result Z :=
  match v with
  | JStr s => Ok (Z.of_nat (length s))
  | JList l => Ok (Z.of_nat (length l))
  | JDict d => Ok (Z.of_nat (size d))
  | _ => Raise TypeError
  end.

(** [v[key]] for a string [key]: the value of a [dict], a [KeyError] when
    the key is missing, a [TypeError] on every other type. *)
Definition getitem (v : json) (key : pystr) : result json :=
  match v with
  | JDict d => match d !! key with
               | Some x => Ok x
               | None => Raise KeyError
               end
  | _ => Raise TypeError
  end.

(** [v.get(key, default)]: only a [dict] has the method. *)
Definition get (v : json) (key : pystr) (default : json) : result json :=
  match v with
  | JDict d => Ok (match d !! key with Some x => x | None => default end)
  | _ => Raise AttributeError
  end.

(** [v.strip()]: only a [str] has the method. *)
Definition strip_method (v : json) : result pystr :=
  match v with
  | JStr s => Ok (strip s)
  | _ => Raise AttributeError
  end.

(** The elements that [for msg in v[-4:]] goes through: the last four items
    of a list, the last four characters of a string; a [dict] cannot be
    subscripted by a slice (a [TypeError], a [KeyError] from Python 3.12 on),
    the other types cannot be subscripted at all. *)
Definition last_four (v : json) : result (list json) :=
  match v with
  | JList l => Ok (drop (length l - 4)%nat l)
  | JStr s => Ok ((λ c, JStr [c]) <$> drop (length s - 4)%nat s)
  | _ => Raise TypeError
  end.

(** [v[:300]] *)
Definition first_300 (v : json) : result json :=
  match v with
  | JStr s => Ok (JStr (take 300 s))
  | JList l => Ok (JList (take 300 l))
  | _ => Raise TypeError
  end.

(** [v == 'user'] *)
Definition is_user (v : json) : bool :=
  match v with
  | JStr s => bool_decide (s = py "user")
  | _ => false
  end.

(** ** The HTTP client [requests] and the backend *)

(** The [options] of the generate call; the two floats are the decimals
    that go on the wire. *)
Record generate_options : Type := {
  temperature : Q;
  top_p : Q;
  num_ctx : Z;
  num_predict : Z;
  top_k : Z
}.

(** The [payload] dictionary of [query_ollama]: its keys are fixed. *)
Record generate_payload : Type := {
  model : pystr;
  prompt : pystr;
  system : pystr;
  stream : bool;
  options : generate_options
}.

(** A [requests.Response]: [status_code] and the outcome of [.json()]. *)
Record response : Type := {
  status_code : Z;
  json_body : result json
}.

(** The backend, as the server sees it: what [requests.post(url, json=...,
    timeout=...)] and [requests.get(url, timeout=...)] do. *)
Record network : Type := {
  http_post : pystr → generate_payload → Z → result response;
  http_get : pystr → Z → result response
}.

Inductive call : Type :=
| Post (url : pystr) (payload : generate_payload) (timeout : Z)
| Get (url : pystr) (timeout : Z).

(** A view computes against the network and leaves the trace of its calls. *)
Definition M (A : Type) : Type := network → result A * list call.

#[global] Instance M_ret : MRet M := λ A a _, (Ok a, []).
#[global] Instance M_bind : MBind M := λ A B f m net,
  match m net with
  | (Ok a, t) => let '(r, t') := f a net in (r, t ++ t')
  | (Raise e, t) => (Raise e, t)
  end.

(** A computation without network access. *)
Definition pure {A} (r : result A) : M A := λ _, (r, []).

(** [try: body  except Exception as e: handler(e)] *)
Definition try_except {A} (body : M A) (handler : exn → M A) : M A := λ net,
  match body net with
  | (Ok a, t) => (Ok a, t)
  | (Raise e, t) => let '(r, t') := handler e net in (r, t ++ t')
  end.

Definition requests_post (url : pystr) (payload : generate_payload)
    (timeout : Z) : M response := λ net,
  (http_post net url payload timeout, [Post url payload timeout]).

Definition requests_get (url : pystr) (timeout : Z) : M response := λ net,
  (http_get net url timeout, [Get url timeout]).

(** ** Constants of the server *)

Definition OLLAMA_BASE_URL : pystr := py "http://localhost:11434".
Definition MODEL_NAME : pystr := py "chemeng-tutor".

Definition SYSTEM_PROMPT : pystr := join LF [
  py "You are an expert Chemical Engineering tutor.";
  py "";
  py "FORMATTING:";
  py "- Use LaTeX for math: $inline$ or $$display$$";
  py "- Use markdown: **bold**, lists, code blocks";
  py "- Always include units";
  py "";
  py "TEACHING:";
  py "- Be clear, accurate, and concise";
  py "- Provide step-by-step explanations for complex topics";
  py "- Give numerical examples when helpful";
  py "- For simple questions, answer directly";
  py "";
  py "THINKING (OPTIONAL):";
  py "- For complex multi-step problems, you MAY briefly show reasoning in <thinking> tags";
  py "- Keep thinking SHORT and focused on key steps";
  py "- For simple questions, skip thinking and answer directly";
  py "";
  py "RESTRICTIONS:";
  py "- ONLY Chemical Engineering topics";
  py "- If asked other topics: " ++ DQUOTE
     ++ py "I specialize in Chemical Engineering topics!" ++ DQUOTE;
  py "";
  py "Maintain high accuracy while being efficient."
].

(** A view returns [jsonify(body), status]; a view that returns
    [jsonify(body)] alone answers with status 200. *)
Record reply : Type := {
  body : gmap pystr json;
  status : Z
}.

Definition jsonify (d : gmap pystr json) (code : Z) : reply :=
  {| body := d; status := code |}.

Section Server.

(** [repr v] of a value that is not a string, which is what an f-string
    writes for it, and [str(e)] of an exception: both are the Python
    runtime's, not the repository's. *)
Variable repr : json → pystr.
Variable str_exn : exn → pystr.

(** [f"{v}"] *)
Definition format (v : json) : pystr :=
  match v with
  | JStr s => s
  | _ => repr v
  end.

(** One element of the list comprehension of [query_ollama]:
    [f"{'Student' if msg['role'] == 'user' else 'Tutor'}: {msg['content'][:300]}"] *)
Definition history_line (msg : json) : result pystr :=
  role ← getitem msg (py "role");
  content ← getitem msg (py "content");
  excerpt ← first_300 content;
  mret ((if is_user role then py "Student" else py "Tutor")
        ++ py ": " ++ format excerpt).

(** The test [conversation_history and len(conversation_history) > 0]. *)
Definition has_history (conversation_history : json) : result bool :=
  if truthy conversation_history
  then n ← len conversation_history; mret (0 <? n)
  else mret false.

(** Lines 43-50 of [query_ollama]: the value of [full_prompt]. *)
Definition full_prompt (prompt : pystr) (conversation_history : json)
    : result pystr :=
  b ← has_history conversation_history;
  if b : bool then
    msgs ← last_four conversation_history;
    lines ← mapM history_line msgs;
    let history_text := join (LF ++ LF) lines in
    mret (py "Recent context:" ++ LF ++ history_text
          ++ LF ++ LF ++ py "Student: " ++ prompt)
  else mret prompt.

(** Lines 52-64: the [payload] dictionary. *)
Definition payload (full_prompt : pystr) : generate_payload :=
  {| model := MODEL_NAME;
     prompt := full_prompt;
     system := SYSTEM_PROMPT;
     stream := false;
     options := {| temperature := 0.6%Q;
                   top_p := 0.9%Q;
                   num_ctx := 6144;
                   num_predict := 1536;
                   top_k := 40 |} |}.

(** [query_ollama(prompt, conversation_history)]; Python's [None] is
    [JNull].  The [len(result)] inside the logged f-string is evaluated,
    and raises on a result without length. *)
Definition query_ollama (prompt : pystr) (conversation_history : json)
    : M json :=
  try_except
    (full_prompt ← pure (full_prompt prompt conversation_history);
     response ← requests_post (OLLAMA_BASE_URL ++ py "/api/generate")
                   (payload full_prompt) 150;
     if status_code response =? 200 then
       data ← pure (json_body response);
       result ← pure (getitem data (py "response"));
       _ ← pure (len result);
       mret result
     else mret JNull)
    (λ e, mret JNull).

(** The view of [GET /health]. *)
Definition health_check : M reply :=
  try_except
    (test_response ← requests_get (OLLAMA_BASE_URL ++ py "/api/tags") 5;
     if status_code test_response =? 200 then
       mret (jsonify {[ py "status" := JStr (py "healthy");
                        py "ollama" := JStr (py "connected");
                        py "model" := JStr MODEL_NAME ]} 200)
     else
       mret (jsonify {[ py "status" := JStr (py "unhealthy");
                        py "ollama" := JStr (py "disconnected") ]} 503))
    (λ e, mret (jsonify {[ py "status" := JStr (py "error");
                           py "message" := JStr (str_exn e) ]} 503)).

(** The view of [POST /api/chat]; [request_json] is the outcome of
    reading [request.json]. *)
Definition chat (request_json : result json) : M reply :=
  try_except
    (data ← pure request_json;
     message ← pure (get data (py "message") (JStr []));
     user_message ← pure (strip_method message);
     history ← pure (get data (py "history") (JList []));
     if negb (truthy (JStr user_message)) then
       mret (jsonify {[ py "error" := JStr (py "Empty message") ]} 400)
     else
       bot_response ← query_ollama user_message history;
       if truthy bot_response then
         mret (jsonify {[ py "response" := bot_response;
                          py "model" := JStr MODEL_NAME ]} 200)
       else
         mret (jsonify {[ py "error" := JStr (py "Failed to generate response") ]}
                 500))
    (λ e, mret (jsonify {[ py "error" := JStr (py "Internal error") ]} 500)).

End Server.

(** ** The replies of the two views *)

Definition generate_url : pystr := OLLAMA_BASE_URL ++ py "/api/generate".
Definition tags_url : pystr := OLLAMA_BASE_URL ++ py "/api/tags".

Definition empty_message_reply : reply :=
  jsonify {[ py "error" := JStr (py "Empty message") ]} 400.
Definition internal_error_reply : reply :=
  jsonify {[ py "error" := JStr (py "Internal error") ]} 500.
Definition failed_reply : reply :=
  jsonify {[ py "error" := JStr (py "Failed to generate response") ]} 500.
Definition success_reply (text : json) : reply :=
  jsonify {[ py "response" := text; py "model" := JStr (py "chemeng-tutor") ]} 200.

Definition healthy_reply : reply :=
  jsonify {[ py "status" := JStr (py "healthy");
             py "ollama" := JStr (py "connected");
             py "model" := JStr (py "chemeng-tutor") ]} 200.
Definition unhealthy_reply : reply :=
  jsonify {[ py "status" := JStr (py "unhealthy");
             py "ollama" := JStr (py "disconnected") ]} 503.
Definition error_reply (message : pystr) : reply :=
  jsonify {[ py "status" := JStr (py "error"); py "message" := JStr message ]} 503.

(** ** Vocabulary of the specification *)

(** A message that is empty or holds white space only. *)
Definition whitespace_only (s : pystr) : Prop := Forall (λ c, isspace c = true) s.

(** The speaker label of a turn in the prompt. *)
Definition speaker (role : json) : pystr :=
  if is_user role then py "Student" else py "Tutor".

(** A turn of the data model: an object with a role and a free text. *)
Inductive text_turn : json → Prop :=
| TextTurn (d : gmap pystr json) (role : json) (content : pystr) :
    d !! py "role" = Some role →
    d !! py "content" = Some (JStr content) →
    text_turn (JDict d).

(** [line] shows the turn [msg] in the prompt: its speaker, then an excerpt
    of its text of at most 300 characters, taken from the start. *)
Inductive turn_line (msg : json) (line : pystr) : Prop :=
| TurnLine (d : gmap pystr json) (role : json) (content excerpt : pystr) :
    msg = JDict d →
    d !! py "role" = Some role →
    d !! py "content" = Some (JStr content) →
    excerpt `prefix_of` content →
    length excerpt = (300 `min` length content)%nat →
    line = speaker role ++ py ": " ++ excerpt →
    turn_line msg line.

(** An entry of the history that cannot be shown: not an object, or an
    object without ['role'], without ['content'], or whose ['content'] is
    neither a string nor a list, hence cannot be sliced. *)
Inductive malformed_turn : json → Prop :=
| NotAnObject (msg : json) :
    (∀ d, msg ≠ JDict d) → malformed_turn msg
| NoRole (d : gmap pystr json) :
    d !! py "role" = None → malformed_turn (JDict d)
| NoContent (d : gmap pystr json) :
    d !! py "content" = None → malformed_turn (JDict d)
| ContentNotSliceable (d : gmap pystr json) (content : json) :
    d !! py "content" = Some content →
    (∀ s, content ≠ JStr s) → (∀ l, content ≠ JList l) →
    malformed_turn (JDict d).

(** The ways the generate call fails: the call raises (a timeout, a refused
    connection), the status is not 200, or the body is malformed, that is,
    it is not JSON, not an object, has no ['response'] member, or that
    member is [null], a boolean or a number. *)
Inductive generate_failure : result response → Prop :=
| CallRaises (e : exn) :
    generate_failure (Raise e)
| BadStatus (r : response) :
    status_code r ≠ 200 → generate_failure (Ok r)
| BodyNotJson (r : response) (e : exn) :
    json_body r = Raise e → generate_failure (Ok r)
| BodyNotObject (r : response) (v : json) :
    json_body r = Ok v → (∀ d, v ≠ JDict d) → generate_failure (Ok r)
| BodyWithoutResponse (r : response) (d : gmap pystr json) :
    json_body r = Ok (JDict d) → d !! py "response" = None →
    generate_failure (Ok r)
| ResponseNotText (r : response) (d : gmap pystr json) (v : json) :
    json_body r = Ok (JDict d) → d !! py "response" = Some v →
    v = JNull ∨ (∃ b, v = JBool b) ∨ (∃ n, v = JInt n) ∨ (∃ x, v = JFloat x) →
    generate_failure (Ok r).

(** The [history] of a request object, [data.get('history', [])]. *)
Definition history_of (d : gmap pystr json) : json :=
  match d !! py "history" with Some x => x | None => JList [] end.

(** The status call answers, and with status 200. *)
Definition backend_up (net : network) : Prop :=
  ∃ r, http_get net tags_url 5 = Ok r ∧ status_code r = 200.

(** ** Sample runtimes, backends and requests *)

Definition sample_repr : json → pystr := λ _, py "[]".
Definition sample_str : exn → pystr := λ _, py "timed out".

(** A backend that answers every call in the same way. *)
Definition backend_answering (r : result response) : network :=
  {| http_post := λ _ _ _, r; http_get := λ _ _, r |}.

(** A well-formed answer of the generate endpoint. *)
Definition generated (text : pystr) : response :=
  {| status_code := 200;
     json_body := Ok (JDict {[ py "response" := JStr text;
                               py "done" := JBool true ]}) |}.

Definition turn (role content : pystr) : json :=
  JDict {[ py "role" := JStr role; py "content" := JStr content ]}.

Definition five_turns : list json :=
  [ turn (py "user") (py "What is a mole?");
    turn (py "assistant") (py "An amount of substance.");
    turn (py "user") (py "And molarity?");
    turn (py "assistant") (py "Moles per litre.");
    turn (py "user") (py "Thanks") ].

(** A history whose last entry has no ['content']. *)
Definition broken_history : list json :=
  [ turn (py "user") (py "What is a mole?");
    JDict {[ py "role" := JStr (py "assistant") ]} ].

(** Four turns of the student, each with a text of 400 characters. *)
Definition long_turns : list json :=
  replicate 4 (turn (py "user") (replicate 400 120%N)).

(** ** Stripping *)

Lemma lstrip_whitespace (s : pystr) : whitespace_only s → lstrip s = [].
Proof.
  induction 1 as [|c s Hc _ IH]; simpl; [done|]. by rewrite Hc.
Qed.

Lemma lstrip_head (s : pystr) :
  lstrip s = [] ∨ ∃ c s', lstrip s = c :: s' ∧ isspace c = false.
Proof.
  induction s as [|c s IH]; simpl; [by left|].
  destruct (isspace c) eqn:Hc; [done|]. right. by exists c, s.
Qed.

Lemma lstrip_nil_inv (s : pystr) : lstrip s = [] → whitespace_only s.
Proof.
  induction s as [|c s IH]; simpl; intros H; [constructor|].
  destruct (isspace c) eqn:Hc; [|done]. constructor; [done|by apply IH].
Qed.

Lemma rstrip_nil (s : pystr) : rstrip s = [] ↔ whitespace_only s.
Proof.
  unfold rstrip. split.
  - intros H. apply (f_equal reverse) in H.
    rewrite reverse_involutive, reverse_nil in H.
    apply lstrip_nil_inv in H. unfold whitespace_only in *.
    by rewrite Forall_reverse in H.
  - intros H. rewrite lstrip_whitespace; [done|].
    unfold whitespace_only. by rewrite Forall_reverse.
Qed.

Lemma strip_nil (s : pystr) : strip s = [] ↔ whitespace_only s.
Proof.
  unfold strip. rewrite rstrip_nil. split.
  - intros H. apply lstrip_nil_inv.
    destruct (lstrip_head s) as [|(c & s' & Hs & Hc)]; [done|].
    rewrite Hs in H. inversion H; congruence.
  - intros H. rewrite lstrip_whitespace; [constructor|done].
Qed.

Lemma truthy_JStr (s : pystr) : truthy (JStr s) = false ↔ s = [].
Proof. destruct s; simpl; split; congruence. Qed.

Lemma truthy_strip (s : pystr) :
  truthy (JStr (strip s)) = false ↔ whitespace_only s.
Proof. by rewrite truthy_JStr, strip_nil. Qed.

Lemma truthy_strip_true (s : pystr) :
  ¬ whitespace_only s → truthy (JStr (strip s)) = true.
Proof.
  intros H. destruct (truthy (JStr (strip s))) eqn:E; [done|].
  by apply truthy_strip in E.
Qed.

(** ** Running a view *)

Arguments py : simpl never.
Arguments OLLAMA_BASE_URL : simpl never.
Arguments MODEL_NAME : simpl never.
Arguments SYSTEM_PROMPT : simpl never.
Arguments strip : simpl never.
Arguments truthy : simpl never.
Arguments full_prompt : simpl never.
Arguments query_ollama : simpl never.
Arguments payload : simpl never.

Ltac run :=
  unfold mbind, mret, M_bind, M_ret, result_bind, result_ret, pure,
    try_except, requests_post, requests_get; cbn.

Lemma mapM_Ok {A B} (f : A → result B) (l : list A) (k : list B) :
  Forall2 (λ x y, f x = Ok y) l k → mapM f l = Ok k.
Proof.
  induction 1 as [|x y l k Hx _ IH]; [done|].
  simpl. rewrite Hx. simpl. by rewrite IH.
Qed.

Lemma mapM_Raise {A B} (f : A → result B) (l : list A) :
  Exists (λ x, ∃ e, f x = Raise e) l → ∃ e, mapM f l = Raise (A:=list B) e.
Proof.
  induction 1 as [x l [e He]|x l _ [e IH]]; simpl.
  - exists e. by rewrite He.
  - destruct (f x) as [y|e']; simpl; [|by exists e'].
    exists e. by rewrite IH.
Qed.

(** ** The prompt *)

Section Prompt.

Variable repr : json → pystr.

Lemma history_line_text_turn (msg : json) :
  text_turn msg → ∃ line, history_line repr msg = Ok line ∧ turn_line msg line.
Proof.
  intros [d role content Hr Hc]. unfold history_line. simpl.
  rewrite Hr. simpl. rewrite Hc. simpl. eexists. split; [done|].
  eapply (TurnLine _ _ d role content (take 300 content)); try done.
  - apply prefix_take.
  - apply length_take.
Qed.

Lemma history_line_malformed (msg : json) :
  malformed_turn msg → ∃ e, history_line repr msg = Raise e.
Proof.
  unfold history_line.
  intros [m Hm|d Hr|d Hc|d c Hc Hs Hl].
  - destruct m; try (by eexists). by destruct (Hm d).
  - simpl. rewrite Hr. by eexists.
  - simpl. rewrite Hc. destruct (d !! py "role"); by eexists.
  - simpl. rewrite Hc. destruct (d !! py "role"); [|by eexists]. simpl.
    destruct c; try (by eexists); [by destruct (Hs s)|by destruct (Hl l)].
Qed.

Lemma has_history_list (h : list json) :
  h ≠ [] → has_history (JList h) = Ok true.
Proof. destruct h; [done|]. intros _. reflexivity. Qed.

Lemma full_prompt_no_history (p : pystr) : full_prompt repr p (JList []) = Ok p.
Proof. reflexivity. Qed.

Lemma full_prompt_text_turns (p : pystr) (h : list json) :
  h ≠ [] →
  Forall text_turn (drop (length h - 4) h) →
  ∃ lines,
    Forall2 turn_line (drop (length h - 4) h) lines ∧
    full_prompt repr p (JList h)
    = Ok (py "Recent context:" ++ LF ++ join (LF ++ LF) lines
          ++ LF ++ LF ++ py "Student: " ++ p).
Proof.
  intros Hh Hturns.
  assert (∃ lines, Forall2 (λ msg line, history_line repr msg = Ok line
                                        ∧ turn_line msg line)
                     (drop (length h - 4) h) lines) as [lines Hlines].
  { induction Hturns as [|msg l Hmsg _ [lines IH]]; [by exists []|].
    destruct (history_line_text_turn msg Hmsg) as (line & ? & ?).
    exists (line :: lines). by constructor. }
  exists lines. split.
  - eapply Forall2_impl; [exact Hlines|]. by intros ?? [_ ?].
  - unfold full_prompt. rewrite has_history_list by done. simpl.
    rewrite (mapM_Ok _ _ lines); [done|].
    eapply Forall2_impl; [exact Hlines|]. by intros ?? [? _].
Qed.

Lemma full_prompt_malformed (p : pystr) (h : list json) :
  Exists malformed_turn (drop (length h - 4) h) →
  ∃ e, full_prompt repr p (JList h) = Raise e.
Proof.
  intros Hbad. unfold full_prompt.
  assert (h ≠ []) as Hh by (intros ->; by apply Exists_nil in Hbad).
  rewrite has_history_list by done. simpl.
  destruct (mapM_Raise (B:=pystr) (history_line repr) (drop (length h - 4) h))
    as [e He].
  { eapply Exists_impl; [exact Hbad|]. apply history_line_malformed. }
  exists e. by rewrite He.
Qed.

(** ** The backend call *)

Lemma query_ollama_raise (p : pystr) (h : json) (net : network) (e : exn) :
  full_prompt repr p h = Raise e →
  query_ollama repr p h net = (Ok JNull, []).
Proof. intros H. unfold query_ollama. run. by rewrite H. Qed.

Lemma query_ollama_trace (p : pystr) (h : json) (net : network) (fp : pystr) :
  full_prompt repr p h = Ok fp →
  ∃ v, query_ollama repr p h net = (Ok v, [Post generate_url (payload fp) 150]).
Proof.
  intros H. unfold query_ollama. run. rewrite H. fold generate_url.
  destruct (http_post net generate_url (payload fp) 150) as [r|e];
    [|simpl; by eexists].
  destruct (status_code r =? 200); [|simpl; by eexists].
  destruct (json_body r) as [v|e]; [|simpl; by eexists].
  destruct (getitem v (py "response")) as [x|e]; [|simpl; by eexists].
  destruct (len x); simpl; by eexists.
Qed.

Lemma query_ollama_failure (p : pystr) (h : json) (net : network) (fp : pystr) :
  full_prompt repr p h = Ok fp →
  generate_failure (http_post net generate_url (payload fp) 150) →
  query_ollama repr p h net = (Ok JNull, [Post generate_url (payload fp) 150]).
Proof.
  intros H Hfail. unfold query_ollama. run. rewrite H. fold generate_url.
  destruct Hfail as [e|r Hs|r e Hb|r v Hb Hv|r d Hb Hd|r d v Hb Hd Hv]; [done|..];
    destruct (status_code r =? 200) eqn:Hst; try done.
  - by apply Z.eqb_eq in Hst.
  - by rewrite Hb.
  - rewrite Hb. simpl. destruct v; try done. by destruct (Hv d).
  - rewrite Hb. simpl. by rewrite Hd.
  - rewrite Hb. simpl. rewrite Hd.
    by destruct Hv as [->|[[b ->]|[[n ->]|[x ->]]]].
Qed.

Lemma query_ollama_text (p : pystr) (h : json) (net : network) (fp : pystr)
    (r : response) (d : gmap pystr json) (text : pystr) :
  full_prompt repr p h = Ok fp →
  http_post net generate_url (payload fp) 150 = Ok r →
  status_code r = 200 →
  json_body r = Ok (JDict d) →
  d !! py "response" = Some (JStr text) →
  query_ollama repr p h net
  = (Ok (JStr text), [Post generate_url (payload fp) 150]).
Proof.
  intros H Hpost Hs Hb Hd. unfold query_ollama. run. rewrite H.
  fold generate_url. rewrite Hpost, Hs. simpl. rewrite Hb. simpl.
  by rewrite Hd.
Qed.

(** ** The chat view *)

Lemma chat_query (d : gmap pystr json) (m : pystr) (net : network)
    (v : json) (t : list call) :
  d !! py "message" = Some (JStr m) →
  ¬ whitespace_only m →
  query_ollama repr (strip m) (history_of d) net = (Ok v, t) →
  chat repr (Ok (JDict d)) net
  = (Ok (if truthy v then success_reply v else failed_reply), t).
Proof.
  intros Hm Hne Hq. unfold chat. run. rewrite Hm. cbn.
  rewrite truthy_strip_true by done. cbn.
  fold (history_of d). rewrite Hq.
  destruct (truthy v); cbn; by rewrite app_nil_r.
Qed.

Lemma chat_post_inv (req : result json) (net : network)
    (url : pystr) (p : generate_payload) (t : Z) :
  Post url p t ∈ snd (chat repr req net) →
  ∃ d m fp,
    req = Ok (JDict d) ∧ d !! py "message" = Some (JStr m) ∧
    ¬ whitespace_only m ∧
    full_prompt repr (strip m) (history_of d) = Ok fp ∧
    url = generate_url ∧ p = payload fp ∧ t = 150.
Proof.
  destruct req as [v|e]; [|by intros ?%elem_of_nil].
  destruct v as [| | | | |l|d]; try (by intros ?%elem_of_nil).
  destruct (d !! py "message") as [v|] eqn:Hm.
  - destruct v as [| | | |m| |];
      try (unfold chat; run; rewrite Hm; by intros ?%elem_of_nil).
    destruct (truthy (JStr (strip m))) eqn:Hne.
    + assert (¬ whitespace_only m) as Hne'.
      { intros Hw%truthy_strip. congruence. }
      destruct (full_prompt repr (strip m) (history_of d)) as [fp|e] eqn:Hfp.
      * destruct (query_ollama_trace _ _ net _ Hfp) as [v Hq].
        rewrite (chat_query d m net v _ Hm Hne' Hq). simpl.
        intros Hin%list_elem_of_singleton. simplify_eq.
        by exists d, m, fp.
      * rewrite (chat_query d m net _ _ Hm Hne' (query_ollama_raise _ _ net _ Hfp)).
        by intros ?%elem_of_nil.
    + unfold chat; run; rewrite Hm; simpl. rewrite Hne. simpl.
      by intros ?%elem_of_nil.
  - unfold chat; run; rewrite Hm; simpl. by intros ?%elem_of_nil.
Qed.

(** The chat view and its helper always return: no exception gets through. *)
Lemma chat_returns (req : result json) (net : network) :
  ∃ rep, fst (chat repr req net) = Ok rep.
Proof.
  unfold chat, try_except.
  match goal with
  | |- context [match ?body with _ => _ end] => destruct body as [[rep|e] t]
  end; by eexists.
Qed.

Lemma query_ollama_returns (p : pystr) (h : json) (net : network) :
  ∃ v, fst (query_ollama repr p h net) = Ok v.
Proof.
  destruct (full_prompt repr p h) as [fp|e] eqn:Hfp.
  - destruct (query_ollama_trace p h net fp Hfp) as [v ->]. by exists v.
  - rewrite (query_ollama_raise p h net e Hfp). by exists JNull.
Qed.

End Prompt.

(** ** Validation of the request *)

(** C1: a chat request whose message is the empty string or white space
    only is answered with the validation error "Empty message" and status
    400, and the trace of backend calls is empty. *)
Theorem chat_rejects_blank_message (repr : json → pystr) (net : network)
    (d : gmap pystr json) (m : pystr) :
  d !! py "message" = Some (JStr m) →
  whitespace_only m →
  chat repr (Ok (JDict d)) net = (Ok empty_message_reply, []).
Proof.
  intros Hm Hw. unfold chat. run. rewrite Hm. cbn.
  apply truthy_strip in Hw. by rewrite Hw.
Qed.

Lemma chat_rejects_blank_message_witness :
  let d : gmap pystr json := {[ py "message" := JStr (py "   ");
                                py "history" := JList five_turns ]} in
  d !! py "message" = Some (JStr (py "   ")) ∧
  whitespace_only (py "   ") ∧
  chat sample_repr (Ok (JDict d)) (backend_answering (Ok (generated (py "Hello"))))
  = (Ok empty_message_reply, []).
Proof.
  assert (whitespace_only (py "   ")) as Hw by (repeat constructor).
  split; [reflexivity|]. split; [exact Hw|].
  apply (chat_rejects_blank_message _ _ _ (py "   ")); [reflexivity|exact Hw].
Defined.

(** C9: when the request body does not decode, or its message is present
    but is not a string, the answer is the generic "Internal error" with
    status 500, not the validation error, and no backend call is made. *)
Theorem chat_internal_error (repr : json → pystr) (net : network)
    (req : result json) :
  (∃ e, req = Raise e) ∨
  (∃ d v, req = Ok (JDict d) ∧ d !! py "message" = Some v ∧ ∀ s, v ≠ JStr s) →
  chat repr req net = (Ok internal_error_reply, []) ∧
  internal_error_reply ≠ empty_message_reply.
Proof.
  intros H. split; [|by intros [=]].
  destruct H as [[e ->]|(d & v & -> & Hm & Hv)]; [done|].
  unfold chat. run. rewrite Hm.
  destruct v; try done. by destruct (Hv s).
Qed.

Lemma chat_internal_error_witness :
  let req := Ok (JDict {[ py "message" := JInt 42 ]}) in
  ((∃ e, req = Raise e) ∨
   (∃ d v, req = Ok (JDict d) ∧ d !! py "message" = Some v ∧ ∀ s, v ≠ JStr s)) ∧
  chat sample_repr req (backend_answering (Ok (generated (py "Hello"))))
  = (Ok internal_error_reply, []).
Proof.
  assert ((∃ e, Ok (JDict {[ py "message" := JInt 42 ]}) = Raise e) ∨
          (∃ d v, Ok (JDict {[ py "message" := JInt 42 ]}) = Ok (JDict d) ∧
                  d !! py "message" = Some v ∧ ∀ s, v ≠ JStr s)) as H.
  { right. exists {[ py "message" := JInt 42 ]}, (JInt 42).
    split; [reflexivity|]. split; [reflexivity|]. intros s. discriminate. }
  split; [exact H|].
  exact (proj1 (chat_internal_error sample_repr _ _ H)).
Defined.

(** ** The prompt of the generate call *)

(** C3, as stated, fails: the message " hi" has no history, and the prompt
    that is sent is "hi", without the leading space. *)
Lemma chat_prompt_not_verbatim :
  let d : gmap pystr json := {[ py "message" := JStr (py " hi") ]} in
  d !! py "history" = None ∧
  ∃ p, snd (chat sample_repr (Ok (JDict d))
              (backend_answering (Ok (generated (py "Hello")))))
       = [Post generate_url p 150] ∧
       prompt p = py "hi" ∧ prompt p ≠ py " hi".
Proof.
  split; [reflexivity|]. eexists. split; [vm_compute; reflexivity|].
  split; [reflexivity|]. discriminate.
Qed.

(** C3, amended: for a request whose message is not blank and that has no
    history (the member is absent or the empty list), exactly one generate
    call is made, and its prompt is the message stripped of leading and
    trailing white space. *)
Theorem chat_prompt_without_history (repr : json → pystr) (net : network)
    (d : gmap pystr json) (m : pystr) :
  d !! py "message" = Some (JStr m) →
  ¬ whitespace_only m →
  d !! py "history" = None ∨ d !! py "history" = Some (JList []) →
  ∃ p, snd (chat repr (Ok (JDict d)) net) = [Post generate_url p 150] ∧
       prompt p = strip m.
Proof.
  intros Hm Hne Hh.
  assert (full_prompt repr (strip m) (history_of d) = Ok (strip m)) as Hfp.
  { unfold history_of. by destruct Hh as [->| ->]. }
  destruct (query_ollama_trace repr _ _ net _ Hfp) as [v Hq].
  rewrite (chat_query repr d m net v _ Hm Hne Hq).
  by exists (payload (strip m)).
Qed.

Lemma chat_prompt_without_history_witness :
  let d : gmap pystr json := {[ py "message" := JStr (py " hi ");
                                py "history" := JList [] ]} in
  d !! py "message" = Some (JStr (py " hi ")) ∧
  ¬ whitespace_only (py " hi ") ∧
  (d !! py "history" = None ∨ d !! py "history" = Some (JList [])) ∧
  ∃ p, snd (chat sample_repr (Ok (JDict d))
              (backend_answering (Ok (generated (py "Hello")))))
       = [Post generate_url p 150] ∧
       prompt p = strip (py " hi ").
Proof.
  assert (¬ whitespace_only (py " hi ")) as Hne.
  { intros H%strip_nil. vm_compute in H. discriminate. }
  split; [reflexivity|]. split; [exact Hne|]. split; [right; reflexivity|].
  apply (chat_prompt_without_history _ _ _ (py " hi "));
    [reflexivity|exact Hne|right; reflexivity].
Defined.

Lemma length_last_four {A} (h : list A) :
  length (drop (length h - 4) h) = (4 `min` length h)%nat.
Proof. rewrite length_drop. lia. Qed.

(** C2: for a request whose message is not blank and whose history is a
    non-empty list of turns, one generate call is made, and its prompt is
    "Recent context:", then one line per turn of a suffix of the history of
    at most four turns (its last four, or all of them when there are
    fewer), each line holding the speaker and the first 300 characters at
    most of the turn's text, then "Student: " and the stripped message. *)
Theorem chat_prompt_with_history (repr : json → pystr) (net : network)
    (d : gmap pystr json) (m : pystr) (h : list json) :
  d !! py "message" = Some (JStr m) →
  ¬ whitespace_only m →
  d !! py "history" = Some (JList h) →
  h ≠ [] →
  Forall text_turn (drop (length h - 4) h) →
  ∃ recent lines,
    recent `suffix_of` h ∧
    length recent = (4 `min` length h)%nat ∧
    Forall2 turn_line recent lines ∧
    snd (chat repr (Ok (JDict d)) net)
    = [Post generate_url
         (payload (py "Recent context:" ++ LF ++ join (LF ++ LF) lines
                   ++ LF ++ LF ++ py "Student: " ++ strip m))
         150].
Proof.
  intros Hm Hne Hh Hnil Hturns.
  destruct (full_prompt_text_turns repr (strip m) h Hnil Hturns)
    as (lines & Hlines & Hfp).
  assert (history_of d = JList h) as Hd by (unfold history_of; by rewrite Hh).
  rewrite <- Hd in Hfp.
  destruct (query_ollama_trace repr _ _ net _ Hfp) as [v Hq].
  exists (drop (length h - 4) h), lines.
  split; [apply suffix_drop|]. split; [apply length_last_four|].
  split; [exact Hlines|].
  by rewrite (chat_query repr d m net v _ Hm Hne Hq).
Qed.

Lemma chat_prompt_with_history_witness :
  let d : gmap pystr json := {[ py "message" := JStr (py "Why?");
                                py "history" := JList five_turns ]} in
  d !! py "message" = Some (JStr (py "Why?")) ∧
  ¬ whitespace_only (py "Why?") ∧
  d !! py "history" = Some (JList five_turns) ∧
  five_turns ≠ [] ∧
  Forall text_turn (drop (length five_turns - 4) five_turns) ∧
  ∃ recent lines,
    recent `suffix_of` five_turns ∧
    length recent = (4 `min` length five_turns)%nat ∧
    Forall2 turn_line recent lines ∧
    snd (chat sample_repr (Ok (JDict d))
           (backend_answering (Ok (generated (py "Hello")))))
    = [Post generate_url
         (payload (py "Recent context:" ++ LF ++ join (LF ++ LF) lines
                   ++ LF ++ LF ++ py "Student: " ++ strip (py "Why?")))
         150].
Proof.
  assert (¬ whitespace_only (py "Why?")) as Hne.
  { intros H%strip_nil. vm_compute in H. discriminate. }
  assert (Forall text_turn (drop (length five_turns - 4) five_turns)) as Hturns.
  { repeat constructor;
      by eapply (TextTurn _ (JStr _) _). }
  split; [reflexivity|]. split; [exact Hne|]. split; [reflexivity|].
  split; [discriminate|]. split; [exact Hturns|].
  apply (chat_prompt_with_history _ _ _ (py "Why?") five_turns);
    [reflexivity|exact Hne|reflexivity|discriminate|exact Hturns].
Defined.

(** C10: when one of the last four entries of the history lacks ['role'] or
    ['content'], or has a ['content'] that cannot be sliced, no generate
    call is made, and the answer is the same "Failed to generate response"
    with status 500 that a failure of the backend gives. *)
Theorem chat_malformed_history (repr : json → pystr) (net : network)
    (d : gmap pystr json) (m : pystr) (h : list json) :
  d !! py "message" = Some (JStr m) →
  ¬ whitespace_only m →
  d !! py "history" = Some (JList h) →
  Exists malformed_turn (drop (length h - 4) h) →
  chat repr (Ok (JDict d)) net = (Ok failed_reply, []).
Proof.
  intros Hm Hne Hh Hbad.
  destruct (full_prompt_malformed repr (strip m) h Hbad) as [e Hfp].
  assert (history_of d = JList h) as Hd by (unfold history_of; by rewrite Hh).
  rewrite <- Hd in Hfp.
  by rewrite (chat_query repr d m net _ _ Hm Hne
                (query_ollama_raise repr _ _ net _ Hfp)).
Qed.

Lemma chat_malformed_history_witness :
  let d : gmap pystr json := {[ py "message" := JStr (py "Why?");
                                py "history" := JList broken_history ]} in
  d !! py "message" = Some (JStr (py "Why?")) ∧
  ¬ whitespace_only (py "Why?") ∧
  d !! py "history" = Some (JList broken_history) ∧
  Exists malformed_turn (drop (length broken_history - 4) broken_history) ∧
  chat sample_repr (Ok (JDict d)) (backend_answering (Ok (generated (py "Hello"))))
  = (Ok failed_reply, []).
Proof.
  assert (¬ whitespace_only (py "Why?")) as Hne.
  { intros H%strip_nil. vm_compute in H. discriminate. }
  assert (Exists malformed_turn
            (drop (length broken_history - 4) broken_history)) as Hbad.
  { apply Exists_cons_tl, Exists_cons_hd, NoContent. reflexivity. }
  split; [reflexivity|]. split; [exact Hne|]. split; [reflexivity|].
  split; [exact Hbad|].
  apply (chat_malformed_history _ _ _ (py "Why?") broken_history);
    [reflexivity|exact Hne|reflexivity|exact Hbad].
Defined.

(** ** The outcome of the generate call *)

(** C4: whenever the generate call is made and fails, by an exception of
    the call (a timeout, a refused connection), by a status other than 200
    or by a malformed body, the view returns the one reply "Failed to
    generate response" with status 500: it returns, it does not raise, and
    the reply does not depend on the way the call failed. *)
Theorem chat_backend_failure (repr : json → pystr) (net : network)
    (req : result json) (url : pystr) (p : generate_payload) (t : Z) :
  snd (chat repr req net) = [Post url p t] →
  generate_failure (http_post net url p t) →
  fst (chat repr req net) = Ok failed_reply.
Proof.
  intros Htrace Hfail.
  destruct (chat_post_inv repr req net url p t)
    as (d & m & fp & -> & Hm & Hne & Hfp & -> & -> & ->).
  { rewrite Htrace. by apply list_elem_of_singleton. }
  by rewrite (chat_query repr d m net _ _ Hm Hne
                (query_ollama_failure repr _ _ net _ Hfp Hfail)).
Qed.

Lemma chat_backend_failure_witness :
  let req := Ok (JDict {[ py "message" := JStr (py "Why?") ]}) in
  let net := backend_answering (Raise Timeout) in
  snd (chat sample_repr req net) = [Post generate_url (payload (py "Why?")) 150] ∧
  generate_failure (http_post net generate_url (payload (py "Why?")) 150) ∧
  fst (chat sample_repr req net) = Ok failed_reply.
Proof.
  assert (snd (chat sample_repr (Ok (JDict {[ py "message" := JStr (py "Why?") ]}))
                 (backend_answering (Raise Timeout)))
          = [Post generate_url (payload (py "Why?")) 150]) as Htrace
    by (vm_compute; reflexivity).
  split; [exact Htrace|]. split; [apply CallRaises|].
  exact (chat_backend_failure _ _ _ _ _ _ Htrace (CallRaises Timeout)).
Defined.

(** C5, as stated, fails: the backend answers the generate call with status
    200 and a well-formed body whose generated text is empty, and the view
    returns the error reply with status 500, not a success. *)
Lemma chat_success_needs_text :
  let req := Ok (JDict {[ py "message" := JStr (py "Why?") ]}) in
  let net := backend_answering (Ok (generated [])) in
  snd (chat sample_repr req net) = [Post generate_url (payload (py "Why?")) 150] ∧
  http_post net generate_url (payload (py "Why?")) 150 = Ok (generated []) ∧
  status_code (generated []) = 200 ∧
  fst (chat sample_repr req net) = Ok failed_reply ∧
  fst (chat sample_repr req net) ≠ Ok (success_reply (JStr [])).
Proof.
  assert (fst (chat sample_repr (Ok (JDict {[ py "message" := JStr (py "Why?") ]}))
                 (backend_answering (Ok (generated []))))
          = Ok failed_reply) as Hfst by (vm_compute; reflexivity).
  split; [vm_compute; reflexivity|]. split; [reflexivity|].
  split; [reflexivity|]. split; [exact Hfst|].
  cbv zeta. rewrite Hfst. intros [=].
Qed.

(** C5, amended: whenever the generate call is made and is answered with
    status 200 and a body whose ['response'] is a text that is not empty,
    the view returns the success reply with status 200, which holds that
    text and the model name "chemeng-tutor". *)
Theorem chat_success (repr : json → pystr) (net : network)
    (req : result json) (url : pystr) (p : generate_payload) (t : Z)
    (r : response) (d : gmap pystr json) (text : pystr) :
  snd (chat repr req net) = [Post url p t] →
  http_post net url p t = Ok r →
  status_code r = 200 →
  json_body r = Ok (JDict d) →
  d !! py "response" = Some (JStr text) →
  text ≠ [] →
  fst (chat repr req net) = Ok (success_reply (JStr text)) ∧
  body (success_reply (JStr text)) !! py "response" = Some (JStr text) ∧
  body (success_reply (JStr text)) !! py "model" = Some (JStr MODEL_NAME) ∧
  status (success_reply (JStr text)) = 200.
Proof.
  intros Htrace Hpost Hs Hb Hd Htext.
  split; [|split; [|split]]; [|apply lookup_insert_eq|reflexivity|reflexivity].
  destruct (chat_post_inv repr req net url p t)
    as (d' & m & fp & -> & Hm & Hne & Hfp & -> & -> & ->).
  { rewrite Htrace. by apply list_elem_of_singleton. }
  rewrite (chat_query repr d' m net _ _ Hm Hne
             (query_ollama_text repr _ _ net _ r d text Hfp Hpost Hs Hb Hd)).
  simpl. by destruct text.
Qed.

Lemma chat_success_witness :
  let req := Ok (JDict {[ py "message" := JStr (py "Why?") ]}) in
  let net := backend_answering (Ok (generated (py "Hello"))) in
  snd (chat sample_repr req net) = [Post generate_url (payload (py "Why?")) 150] ∧
  http_post net generate_url (payload (py "Why?")) 150 = Ok (generated (py "Hello")) ∧
  fst (chat sample_repr req net) = Ok (success_reply (JStr (py "Hello"))).
Proof.
  assert (snd (chat sample_repr (Ok (JDict {[ py "message" := JStr (py "Why?") ]}))
                 (backend_answering (Ok (generated (py "Hello")))))
          = [Post generate_url (payload (py "Why?")) 150]) as Htrace
    by (vm_compute; reflexivity).
  split; [exact Htrace|]. split; [reflexivity|].
  refine (proj1 (chat_success _ _ _ _ _ _ (generated (py "Hello")) _ (py "Hello")
                   Htrace _ _ _ _ _));
    [reflexivity|reflexivity|reflexivity|reflexivity|discriminate].
Defined.

(** C8: whenever the generate call is made and is answered with status 200
    and a body whose generated text is the empty string, the view returns
    "Failed to generate response" with status 500, not a success reply. *)
Theorem chat_empty_generated_text (repr : json → pystr) (net : network)
    (req : result json) (url : pystr) (p : generate_payload) (t : Z)
    (r : response) (d : gmap pystr json) :
  snd (chat repr req net) = [Post url p t] →
  http_post net url p t = Ok r →
  status_code r = 200 →
  json_body r = Ok (JDict d) →
  d !! py "response" = Some (JStr []) →
  fst (chat repr req net) = Ok failed_reply ∧ status failed_reply = 500.
Proof.
  intros Htrace Hpost Hs Hb Hd. split; [|reflexivity].
  destruct (chat_post_inv repr req net url p t)
    as (d' & m & fp & -> & Hm & Hne & Hfp & -> & -> & ->).
  { rewrite Htrace. by apply list_elem_of_singleton. }
  by rewrite (chat_query repr d' m net _ _ Hm Hne
                (query_ollama_text repr _ _ net _ r d [] Hfp Hpost Hs Hb Hd)).
Qed.

Lemma chat_empty_generated_text_witness :
  let req := Ok (JDict {[ py "message" := JStr (py "Why?");
                          py "history" := JList five_turns ]}) in
  let net := backend_answering (Ok (generated [])) in
  ∃ p, snd (chat sample_repr req net) = [Post generate_url p 150] ∧
       http_post net generate_url p 150 = Ok (generated []) ∧
       fst (chat sample_repr req net) = Ok failed_reply.
Proof.
  eexists. split; [vm_compute; reflexivity|]. split; [reflexivity|].
  refine (proj1 (chat_empty_generated_text _ _ _ _ _ _ (generated []) _ _ _ _ _ _));
    [vm_compute; reflexivity|reflexivity|reflexivity|reflexivity|reflexivity].
Defined.

(** C7: every generate call that the chat view makes, for any request and
    any backend, goes to the same URL with the same model name, the same
    system instruction, streaming off and the same sampling options; the
    prompt is the only member of the payload that is not fixed. *)
Theorem chat_payload_fixed (repr : json → pystr) (net : network)
    (req : result json) (url : pystr) (p : generate_payload) (t : Z) :
  Post url p t ∈ snd (chat repr req net) →
  url = py "http://localhost:11434/api/generate" ∧
  p = {| model := py "chemeng-tutor";
         prompt := prompt p;
         system := SYSTEM_PROMPT;
         stream := false;
         options := {| temperature := 0.6%Q;
                       top_p := 0.9%Q;
                       num_ctx := 6144;
                       num_predict := 1536;
                       top_k := 40 |} |}.
Proof.
  intros Hin.
  destruct (chat_post_inv repr req net url p t Hin)
    as (d & m & fp & _ & _ & _ & _ & -> & -> & _).
  split; reflexivity.
Qed.

Lemma chat_payload_fixed_witness :
  let req := Ok (JDict {[ py "message" := JStr (py "Why?");
                          py "history" := JList five_turns ]}) in
  let net := backend_answering (Raise ConnectionError) in
  ∃ p, Post generate_url p 150 ∈ snd (chat sample_repr req net) ∧
       model p = py "chemeng-tutor" ∧ system p = SYSTEM_PROMPT ∧
       top_k (options p) = 40.
Proof.
  assert (∃ p, snd (chat sample_repr
                      (Ok (JDict {[ py "message" := JStr (py "Why?");
                                    py "history" := JList five_turns ]}))
                      (backend_answering (Raise ConnectionError)))
               = [Post generate_url p 150]) as [p Hp]
    by (eexists; vm_compute; reflexivity).
  assert (Post generate_url p 150
          ∈ snd (chat sample_repr
                   (Ok (JDict {[ py "message" := JStr (py "Why?");
                                 py "history" := JList five_turns ]}))
                   (backend_answering (Raise ConnectionError)))) as Hin
    by (rewrite Hp; apply list_elem_of_singleton; reflexivity).
  exists p. split; [exact Hin|].
  destruct (chat_payload_fixed _ _ _ _ _ _ Hin) as [_ ->].
  repeat split.
Defined.

(** The prompt does vary: two requests, two prompts. *)
Example chat_prompts_differ :
  ∃ p1 p2,
    snd (chat sample_repr (Ok (JDict {[ py "message" := JStr (py "Why?") ]}))
           (backend_answering (Raise Timeout))) = [Post generate_url p1 150] ∧
    snd (chat sample_repr (Ok (JDict {[ py "message" := JStr (py "How?") ]}))
           (backend_answering (Raise Timeout))) = [Post generate_url p2 150] ∧
    prompt p1 ≠ prompt p2.
Proof.
  do 2 eexists. split; [vm_compute; reflexivity|].
  split; [vm_compute; reflexivity|]. discriminate.
Qed.

(** ** The health view *)

(** C6: the health view makes the one status call and always answers, with
    status 200 or 503.  It answers "healthy" with status 200 exactly when
    the status call returns a response of status 200; when the call returns
    another status the answer is "unhealthy" with status 503, and when the
    call raises (the backend cannot be reached) it is "error" with status
    503. *)
Theorem health_check_report (str_exn : exn → pystr) (net : network) :
  ∃ rep,
    health_check str_exn net = (Ok rep, [Get tags_url 5]) ∧
    (rep = healthy_reply ↔ backend_up net) ∧
    (status rep = 200 ↔ backend_up net) ∧
    (backend_up net ∧ rep = healthy_reply
     ∨ (¬ backend_up net ∧ ∃ r, http_get net tags_url 5 = Ok r
                                ∧ rep = unhealthy_reply ∧ status rep = 503)
     ∨ (¬ backend_up net ∧ ∃ e, http_get net tags_url 5 = Raise e
                                ∧ rep = error_reply (str_exn e)
                                ∧ status rep = 503)).
Proof.
  unfold health_check, backend_up. run. fold tags_url.
  destruct (http_get net tags_url 5) as [r|e] eqn:Hget; cbn.
  - destruct (status_code r =? 200) eqn:Hs; cbn.
    + apply Z.eqb_eq in Hs. exists healthy_reply.
      assert (∃ r0, Ok r = Ok r0 ∧ status_code r0 = 200) by by exists r.
      repeat split; auto.
    + apply Z.eqb_neq in Hs. exists unhealthy_reply.
      assert (¬ ∃ r0, Ok r = Ok r0 ∧ status_code r0 = 200) as Hdown.
      { intros (r0 & [= <-] & ?). done. }
      repeat split; try done.
      right; left. split; [done|]. by exists r.
  - exists (error_reply (str_exn e)).
    assert (¬ ∃ r0, Raise e = Ok r0 ∧ status_code r0 = 200) as Hdown.
    { by intros (r0 & [=] & ?). }
    repeat split; try done.
    right; right. split; [done|]. by exists e.
Qed.

(** * Further properties of the server *)

(** ** More on stripping *)

Lemma lstrip_split (s : pystr) : ∃ l, s = l ++ lstrip s ∧ whitespace_only l.
Proof.
  induction s as [|c s (l & Hs & Hl)].
  { exists []. split; [done|constructor]. }
  simpl. destruct (isspace c) eqn:Hc.
  - exists (c :: l). split; [simpl; by rewrite <- Hs|by constructor].
  - exists []. split; [done|constructor].
Qed.

Lemma rstrip_split (s : pystr) : ∃ r, s = rstrip s ++ r ∧ whitespace_only r.
Proof.
  destruct (lstrip_split (reverse s)) as (l & Hs & Hl).
  exists (reverse l). split.
  - unfold rstrip. rewrite <- reverse_app, <- Hs. by rewrite reverse_involutive.
  - unfold whitespace_only. by rewrite Forall_reverse.
Qed.

Lemma strip_split (s : pystr) :
  ∃ l r, s = l ++ strip s ++ r ∧ whitespace_only l ∧ whitespace_only r.
Proof.
  destruct (lstrip_split s) as (l & Hl & Hwl).
  destruct (rstrip_split (lstrip s)) as (r & Hr & Hwr).
  exists l, r. unfold strip. by rewrite <- Hr.
Qed.

Lemma length_strip (s : pystr) : (length (strip s) ≤ length s)%nat.
Proof.
  destruct (strip_split s) as (l & r & Hs & _).
  rewrite Hs at 2. rewrite !length_app. lia.
Qed.

Lemma strip_head (s : pystr) :
  strip s ≠ [] → ∃ c, head (strip s) = Some c ∧ isspace c = false.
Proof.
  intros Hne. unfold strip in *.
  destruct (rstrip_split (lstrip s)) as (r & Hr & _).
  destruct (lstrip_head s) as [Hnil|(c & s' & Hs & Hc)].
  - rewrite Hnil in Hne. by destruct Hne.
  - exists c. split; [|done]. rewrite Hs in Hr, Hne |- *.
    destruct (rstrip (c :: s')) as [|c' k]; [done|].
    simpl in Hr. by injection Hr as <- _.
Qed.

Lemma strip_last (s : pystr) :
  strip s ≠ [] → ∃ c, last (strip s) = Some c ∧ isspace c = false.
Proof.
  intros Hne. unfold strip, rstrip in *.
  destruct (lstrip_head (reverse (lstrip s))) as [Hnil|(c & s' & Hs & Hc)].
  - rewrite Hnil in Hne. by destruct Hne.
  - exists c. split; [|done]. rewrite Hs, reverse_cons. apply last_snoc.
Qed.

(** ** The length of a joined text *)

Lemma length_join_le (sep : pystr) (l : list pystr) (b : nat) :
  Forall (λ x, (length x ≤ b)%nat) l →
  (length (join sep l) ≤ length l * b + (length l - 1) * length sep)%nat.
Proof.
  induction 1 as [|x l Hx Hl IH]; [simpl; lia|].
  destruct l as [|y l]; [simpl in *; lia|].
  change (join sep (x :: y :: l)) with (x ++ sep ++ join sep (y :: l)).
  rewrite !length_app. simpl length in *.
  replace (S (length l) - 1)%nat with (length l) in IH by lia.
  replace (S (S (length l)) - 1)%nat with (S (length l)) by lia. nia.
Qed.

Lemma length_speaker (role : json) : (length (speaker role) ≤ 7)%nat.
Proof. unfold speaker. destruct (is_user role); vm_compute; lia. Qed.

Lemma length_turn_line (msg : json) (line : pystr) :
  turn_line msg line → (length line ≤ 309)%nat.
Proof.
  intros [d role content excerpt _ _ _ _ Hlen ->].
  rewrite !length_app, Hlen. pose proof (length_speaker role).
  change (length (py ": ")) with 2%nat. lia.
Qed.

(** ** The cases of a run *)

Section Cases.

Variable repr : json → pystr.

Lemma full_prompt_falsy (p : pystr) (h : json) :
  truthy h = false → full_prompt repr p h = Ok p.
Proof. intros H. unfold full_prompt, has_history. by rewrite H. Qed.

Lemma mapM_history_line_chars (s : pystr) :
  s ≠ [] → ∃ e, mapM (history_line repr) ((λ c, JStr [c]) <$> s) = Raise e.
Proof. destruct s as [|c s]; [done|]. intros _. by exists TypeError. Qed.

Lemma full_prompt_not_list (p : pystr) (h : json) :
  truthy h = true → (∀ l, h ≠ JList l) → ∃ e, full_prompt repr p h = Raise e.
Proof.
  intros Ht Hl. unfold full_prompt, has_history. rewrite Ht.
  destruct h as [|b|n|x|s|l|d]; try (by exists TypeError).
  - assert (drop (length s - 4) s ≠ []) as Hne.
    { destruct s as [|c s]; [done|]. intros Hnil%(f_equal length).
      rewrite length_drop in Hnil. simpl in Hnil. lia. }
    destruct (mapM_history_line_chars _ Hne) as [e He].
    exists e. cbn.
    destruct (0 <? Z.of_nat (length s)) eqn:Hpos; [|destruct s; done].
    cbn. by rewrite He.
  - by destruct (Hl l).
  - exists TypeError. unfold truthy in Ht. cbn. by destruct (size d).
Qed.

Lemma drop_last_four_app {A} (older recent : list A) :
  (4 ≤ length recent)%nat →
  drop (length (older ++ recent) - 4) (older ++ recent)
  = drop (length recent - 4) recent.
Proof.
  intros H. rewrite length_app.
  replace (length older + length recent - 4)%nat
    with (length older + (length recent - 4))%nat by lia.
  by rewrite drop_app_add.
Qed.

Lemma drop_last_four_idemp {A} (h : list A) :
  drop (length (drop (length h - 4) h) - 4) (drop (length h - 4) h)
  = drop (length h - 4) h.
Proof.
  rewrite length_drop.
  replace (length h - (length h - 4) - 4)%nat with 0%nat by lia. done.
Qed.

Lemma full_prompt_last_four (p : pystr) (h : list json) :
  full_prompt repr p (JList (drop (length h - 4) h))
  = full_prompt repr p (JList h).
Proof.
  destruct h as [|x h]; [done|].
  assert (drop (length (x :: h) - 4) (x :: h) ≠ []) as Hne.
  { intros Hnil%(f_equal length). rewrite length_drop in Hnil.
    simpl in Hnil. lia. }
  unfold full_prompt. rewrite !has_history_list by done. cbn -[drop length].
  by rewrite drop_last_four_idemp.
Qed.

(** What [query_ollama] returns once the prompt is built. *)
Lemma query_ollama_sent (p : pystr) (h : json) (net : network) (fp : pystr) :
  full_prompt repr p h = Ok fp →
  query_ollama repr p h net
  = (Ok match http_post net generate_url (payload fp) 150 with
        | Ok r =>
            if status_code r =? 200 then
              match data ← json_body r;
                    result ← getitem data (py "response");
                    _ ← len result;
                    mret result
              with
              | Ok v => v
              | Raise _ => JNull
              end
            else JNull
        | Raise _ => JNull
        end,
     [Post generate_url (payload fp) 150]).
Proof.
  intros H. unfold query_ollama. run. rewrite H. fold generate_url.
  destruct (http_post net generate_url (payload fp) 150) as [r|e]; [|done].
  destruct (status_code r =? 200); [|done].
  destruct (json_body r) as [v|e]; [|done]. cbn.
  destruct (getitem v (py "response")) as [x|e]; [|done]. cbn.
  by destruct (len x).
Qed.

Lemma query_ollama_ext (p : pystr) (h1 h2 : json) (net : network) :
  full_prompt repr p h1 = full_prompt repr p h2 →
  query_ollama repr p h1 net = query_ollama repr p h2 net.
Proof. intros H. unfold query_ollama. run. by rewrite H. Qed.

Lemma chat_ext (d1 d2 : gmap pystr json) (net : network) :
  d1 !! py "message" = d2 !! py "message" →
  (∀ p, full_prompt repr p (history_of d1) = full_prompt repr p (history_of d2)) →
  chat repr (Ok (JDict d1)) net = chat repr (Ok (JDict d2)) net.
Proof.
  intros Hm Hh. unfold chat. run. rewrite Hm.
  fold (history_of d1) (history_of d2).
  destruct (d2 !! py "message") as [[| | | |m| |]|]; cbn; try done.
  destruct (truthy (JStr (strip m))); cbn; [|done].
  by rewrite (query_ollama_ext _ _ _ net (Hh (strip m))).
Qed.

End Cases.

(** ** Requests outside the data model *)

(** X1: a request object without a ['message'] member is treated like an
    empty message: the default of [data.get('message', '')] is stripped and
    rejected with "Empty message" and status 400, with no backend call. *)
Theorem chat_missing_message (repr : json → pystr) (net : network)
    (d : gmap pystr json) :
  d !! py "message" = None →
  chat repr (Ok (JDict d)) net = (Ok empty_message_reply, []).
Proof. intros Hm. unfold chat. run. by rewrite Hm. Qed.

Lemma chat_missing_message_witness :
  let d : gmap pystr json := {[ py "history" := JList five_turns ]} in
  d !! py "message" = None ∧
  chat sample_repr (Ok (JDict d)) (backend_answering (Ok (generated (py "Hello"))))
  = (Ok empty_message_reply, []).
Proof.
  split; [reflexivity|].
  apply (chat_missing_message sample_repr); reflexivity.
Defined.

(** X2: a request body that decodes to something other than an object (a
    list, a string, a number, a boolean or [null]) has no [get] method: the
    answer is "Internal error" with status 500, and no backend call. *)
Theorem chat_body_not_object (repr : json → pystr) (net : network) (v : json) :
  (∀ d, v ≠ JDict d) →
  chat repr (Ok v) net = (Ok internal_error_reply, []).
Proof. intros Hv. destruct v; try done. by destruct (Hv d). Qed.

Lemma chat_body_not_object_witness :
  (∀ d, JList [JStr (py "Why?")] ≠ JDict d) ∧
  chat sample_repr (Ok (JList [JStr (py "Why?")]))
    (backend_answering (Ok (generated (py "Hello"))))
  = (Ok internal_error_reply, []).
Proof.
  assert (∀ d, JList [JStr (py "Why?")] ≠ JDict d) as H by (intros d; discriminate).
  split; [exact H|]. exact (chat_body_not_object sample_repr _ _ H).
Defined.

(** X3: a history that is falsy in Python ([null], [false], [0], [0.0],
    [""], [[]] or [{}]) is ignored: one generate call is made and its
    prompt is the stripped message alone. *)
Theorem chat_falsy_history (repr : json → pystr) (net : network)
    (d : gmap pystr json) (m : pystr) (h : json) :
  d !! py "message" = Some (JStr m) →
  ¬ whitespace_only m →
  d !! py "history" = Some h →
  truthy h = false →
  snd (chat repr (Ok (JDict d)) net)
  = [Post generate_url (payload (strip m)) 150].
Proof.
  intros Hm Hne Hh Hf.
  assert (full_prompt repr (strip m) (history_of d) = Ok (strip m)) as Hfp.
  { unfold history_of. rewrite Hh. by apply full_prompt_falsy. }
  by rewrite (chat_query repr d m net _ _ Hm Hne
                (query_ollama_sent repr _ _ net _ Hfp)).
Qed.

Lemma chat_falsy_history_witness :
  let d : gmap pystr json := {[ py "message" := JStr (py "Why?");
                                py "history" := JInt 0 ]} in
  d !! py "message" = Some (JStr (py "Why?")) ∧
  ¬ whitespace_only (py "Why?") ∧
  d !! py "history" = Some (JInt 0) ∧
  truthy (JInt 0) = false ∧
  snd (chat sample_repr (Ok (JDict d))
         (backend_answering (Ok (generated (py "Hello")))))
  = [Post generate_url (payload (strip (py "Why?"))) 150].
Proof.
  assert (¬ whitespace_only (py "Why?")) as Hne.
  { intros H%strip_nil. vm_compute in H. discriminate. }
  split; [reflexivity|]. split; [exact Hne|]. split; [reflexivity|].
  split; [reflexivity|].
  apply (chat_falsy_history _ _ _ (py "Why?") (JInt 0));
    [reflexivity|exact Hne|reflexivity|reflexivity].
Defined.

(** X4: a history that is truthy and is not a list (a number, [true], a
    non-empty string or a non-empty object) makes the prompt construction
    raise: no generate call is made, and the answer is "Failed to generate
    response" with status 500. *)
Theorem chat_history_not_a_list (repr : json → pystr) (net : network)
    (d : gmap pystr json) (m : pystr) (h : json) :
  d !! py "message" = Some (JStr m) →
  ¬ whitespace_only m →
  d !! py "history" = Some h →
  truthy h = true →
  (∀ l, h ≠ JList l) →
  chat repr (Ok (JDict d)) net = (Ok failed_reply, []).
Proof.
  intros Hm Hne Hh Ht Hl.
  destruct (full_prompt_not_list repr (strip m) h Ht Hl) as [e Hfp].
  assert (history_of d = h) as Hd by (unfold history_of; by rewrite Hh).
  rewrite <- Hd in Hfp.
  by rewrite (chat_query repr d m net _ _ Hm Hne
                (query_ollama_raise repr _ _ net _ Hfp)).
Qed.

Lemma chat_history_not_a_list_witness :
  let h := JStr (py "user: What is a mole?") in
  let d : gmap pystr json := {[ py "message" := JStr (py "Why?");
                                py "history" := h ]} in
  d !! py "message" = Some (JStr (py "Why?")) ∧
  ¬ whitespace_only (py "Why?") ∧
  d !! py "history" = Some h ∧
  truthy h = true ∧
  (∀ l, h ≠ JList l) ∧
  chat sample_repr (Ok (JDict d)) (backend_answering (Ok (generated (py "Hello"))))
  = (Ok failed_reply, []).
Proof.
  assert (¬ whitespace_only (py "Why?")) as Hne.
  { intros H%strip_nil. vm_compute in H. discriminate. }
  assert (∀ l, JStr (py "user: What is a mole?") ≠ JList l) as Hl
    by (intros l; discriminate).
  split; [reflexivity|]. split; [exact Hne|]. split; [reflexivity|].
  split; [reflexivity|]. split; [exact Hl|].
  apply (chat_history_not_a_list _ _ _ (py "Why?")
           (JStr (py "user: What is a mole?")));
    [reflexivity|exact Hne|reflexivity|reflexivity|exact Hl].
Defined.

(** ** The shape of every run *)

Lemma chat_cases (repr : json → pystr) (req : result json) (net : network) :
  chat repr req net = (Ok internal_error_reply, []) ∨
  chat repr req net = (Ok empty_message_reply, []) ∨
  ∃ d m,
    req = Ok (JDict d) ∧ d !! py "message" = Some (JStr m) ∧
    ¬ whitespace_only m ∧
    ((∃ e, full_prompt repr (strip m) (history_of d) = Raise e ∧
           chat repr req net = (Ok failed_reply, [])) ∨
     (∃ fp v,
        full_prompt repr (strip m) (history_of d) = Ok fp ∧
        query_ollama repr (strip m) (history_of d) net
        = (Ok v, [Post generate_url (payload fp) 150]) ∧
        chat repr req net
        = (Ok (if truthy v then success_reply v else failed_reply),
           [Post generate_url (payload fp) 150]))).
Proof.
  destruct req as [v|e]; [|by left].
  destruct v as [| | | | |l|d]; try (by left).
  destruct (d !! py "message") as [v|] eqn:Hm.
  - destruct v as [| | | |m| |];
      try (left; unfold chat; run; by rewrite Hm).
    destruct (truthy (JStr (strip m))) eqn:Hne.
    + assert (¬ whitespace_only m) as Hne'.
      { intros Hw%truthy_strip. congruence. }
      right; right. exists d, m. repeat split; try done.
      destruct (full_prompt repr (strip m) (history_of d)) as [fp|e] eqn:Hfp.
      * right. destruct (query_ollama_trace repr _ _ net _ Hfp) as [v Hq].
        exists fp, v. repeat split; try done.
        by rewrite (chat_query repr d m net v _ Hm Hne' Hq).
      * left. exists e. split; [done|].
        by rewrite (chat_query repr d m net _ _ Hm Hne'
                      (query_ollama_raise repr _ _ net _ Hfp)).
    + right; left. unfold chat. run. rewrite Hm. cbn. by rewrite Hne.
  - right; left. unfold chat. run. by rewrite Hm.
Qed.

(** X5: whatever the request and the backend, the chat view makes at most
    one backend call, and that call is a POST to the generate endpoint with
    a timeout of 150 seconds: it never calls the status endpoint and never
    retries. *)
Theorem chat_at_most_one_call (repr : json → pystr) (req : result json)
    (net : network) :
  snd (chat repr req net) = [] ∨
  ∃ p, snd (chat repr req net)
       = [Post (py "http://localhost:11434/api/generate") p 150].
Proof.
  destruct (chat_cases repr req net)
    as [->|[->|(d & m & _ & _ & _ & [(e & _ & ->)|(fp & v & _ & _ & ->)])]];
    try (by left).
  right. by exists (payload fp).
Qed.

(** X6: the chat view always returns, and its reply is one of four: the
    validation error (400), the internal error (500), the generation
    failure (500), or a success (200) whose ['response'] is a truthy value
    and whose ['model'] is the model name. *)
Theorem chat_reply_forms (repr : json → pystr) (req : result json)
    (net : network) :
  ∃ rep,
    fst (chat repr req net) = Ok rep ∧
    (rep = jsonify {[ py "error" := JStr (py "Empty message") ]} 400 ∨
     rep = jsonify {[ py "error" := JStr (py "Internal error") ]} 500 ∨
     rep = jsonify {[ py "error" := JStr (py "Failed to generate response") ]} 500 ∨
     ∃ v, truthy v = true ∧
          rep = jsonify {[ py "response" := v;
                           py "model" := JStr (py "chemeng-tutor") ]} 200).
Proof.
  destruct (chat_cases repr req net)
    as [->|[->|(d & m & _ & _ & _ & [(e & _ & ->)|(fp & v & _ & _ & ->)])]];
    eexists; (split; [reflexivity|]); auto.
  destruct (truthy v) eqn:Hv; [|auto].
  do 3 right. by exists v.
Qed.

(** X7: a success is never made up.  When the chat view answers with status
    200, it made the generate call, the backend answered it with status 200
    and a JSON object, and the ['response'] of the reply is the ['response']
    member of that object, unchanged. *)
Theorem chat_success_inv (repr : json → pystr) (req : result json)
    (net : network) (rep : reply) :
  fst (chat repr req net) = Ok rep →
  status rep = 200 →
  ∃ p r d v,
    snd (chat repr req net) = [Post generate_url p 150] ∧
    http_post net generate_url p 150 = Ok r ∧
    status_code r = 200 ∧
    json_body r = Ok (JDict d) ∧
    d !! py "response" = Some v ∧
    body rep !! py "response" = Some v.
Proof.
  destruct (chat_cases repr req net)
    as [->|[->|(d & m & _ & _ & _ & [(e & _ & ->)|(fp & v & Hfp & Hq & ->)])]];
    try (by intros [= <-]).
  rewrite (query_ollama_sent repr _ _ net _ Hfp) in Hq.
  injection Hq as Hv. simpl. intros [= <-] Hst.
  destruct (truthy v) eqn:Htv; [|done].
  destruct (http_post net generate_url (payload fp) 150) as [r|e] eqn:Hpost;
    [|by subst v].
  destruct (status_code r =? 200) eqn:Hs; [|by subst v].
  apply Z.eqb_eq in Hs.
  destruct (json_body r) as [data|e] eqn:Hb; [|by subst v].
  destruct data as [| | | | | |dd]; try (by subst v).
  cbn in Hv. destruct (dd !! py "response") as [x|] eqn:Hx; [|by subst v].
  cbn in Hv. destruct (len x); cbn in Hv; [|by subst v]. subst x.
  exists (payload fp), r, dd, v. repeat split; done.
Qed.

Lemma chat_success_inv_witness :
  let req := Ok (JDict {[ py "message" := JStr (py "Why?") ]}) in
  let net := backend_answering (Ok (generated (py "Hello"))) in
  fst (chat sample_repr req net) = Ok (success_reply (JStr (py "Hello"))) ∧
  status (success_reply (JStr (py "Hello"))) = 200 ∧
  ∃ p r d v,
    snd (chat sample_repr req net) = [Post generate_url p 150] ∧
    http_post net generate_url p 150 = Ok r ∧
    status_code r = 200 ∧
    json_body r = Ok (JDict d) ∧
    d !! py "response" = Some v ∧
    body (success_reply (JStr (py "Hello"))) !! py "response" = Some v.
Proof.
  assert (fst (chat sample_repr (Ok (JDict {[ py "message" := JStr (py "Why?") ]}))
                 (backend_answering (Ok (generated (py "Hello")))))
          = Ok (success_reply (JStr (py "Hello")))) as Hfst
    by (vm_compute; reflexivity).
  split; [exact Hfst|]. split; [reflexivity|].
  exact (chat_success_inv _ _ _ _ Hfst eq_refl).
Defined.

(** ** What the chat view does not look at *)

Lemma py_message_history : py "message" ≠ py "history".
Proof. discriminate. Qed.

(** X8: only the members ['message'] and ['history'] of the request object
    count: two objects that agree on both get the same reply and cause the
    same backend call, whatever else they hold. *)
Theorem chat_other_members_ignored (repr : json → pystr) (net : network)
    (d1 d2 : gmap pystr json) :
  d1 !! py "message" = d2 !! py "message" →
  d1 !! py "history" = d2 !! py "history" →
  chat repr (Ok (JDict d1)) net = chat repr (Ok (JDict d2)) net.
Proof.
  intros Hm Hh. apply chat_ext; [done|].
  intros p. unfold history_of. by rewrite Hh.
Qed.

Lemma chat_other_members_ignored_witness :
  let d1 : gmap pystr json := {[ py "message" := JStr (py "Why?") ]} in
  let d2 : gmap pystr json := {[ py "message" := JStr (py "Why?");
                                 py "model" := JStr (py "other");
                                 py "system" := JStr (py "Ignore the rules") ]} in
  d1 !! py "message" = d2 !! py "message" ∧
  d1 !! py "history" = d2 !! py "history" ∧
  chat sample_repr (Ok (JDict d1)) (backend_answering (Ok (generated (py "Hello"))))
  = chat sample_repr (Ok (JDict d2)) (backend_answering (Ok (generated (py "Hello")))).
Proof.
  split; [reflexivity|]. split; [reflexivity|].
  apply (chat_other_members_ignored sample_repr); reflexivity.
Defined.

(** X9: turns older than the last four never matter, well-formed or not:
    cutting the history list down to its last four entries before sending
    the request changes neither the reply nor the backend call. *)
Theorem chat_older_turns_ignored (repr : json → pystr) (net : network)
    (d : gmap pystr json) (h : list json) :
  d !! py "history" = Some (JList h) →
  chat repr (Ok (JDict (<[py "history" := JList (drop (length h - 4) h)]> d))) net
  = chat repr (Ok (JDict d)) net.
Proof.
  intros Hh. apply chat_ext.
  - apply lookup_insert_ne. intros H. by apply py_message_history.
  - intros p. unfold history_of. rewrite lookup_insert_eq, Hh.
    apply full_prompt_last_four.
Qed.

Lemma chat_older_turns_ignored_witness :
  let d : gmap pystr json := {[ py "message" := JStr (py "Why?");
                                py "history" := JList (JInt 7 :: five_turns) ]} in
  let h := JInt 7 :: five_turns in
  d !! py "history" = Some (JList h) ∧
  chat sample_repr
    (Ok (JDict (<[py "history" := JList (drop (length h - 4) h)]> d)))
    (backend_answering (Ok (generated (py "Hello"))))
  = chat sample_repr (Ok (JDict d)) (backend_answering (Ok (generated (py "Hello")))).
Proof.
  split; [reflexivity|].
  apply (chat_older_turns_ignored sample_repr _ _ (JInt 7 :: five_turns)).
  reflexivity.
Defined.

(** X10: of the text of a turn, only the first 300 characters matter: a
    turn and the same turn with its text cut to 300 characters give the
    same line of the prompt. *)
Theorem history_line_cut (repr : json → pystr) (d : gmap pystr json)
    (content : pystr) :
  history_line repr (JDict (<[py "content" := JStr content]> d))
  = history_line repr (JDict (<[py "content" := JStr (take 300 content)]> d)).
Proof.
  unfold history_line, getitem.
  assert (py "content" ≠ py "role") as Hne by discriminate.
  rewrite !(lookup_insert_ne _ _ _ _ Hne), !lookup_insert_eq.
  destruct (d !! py "role"); [|done]. cbn.
  by rewrite take_take.
Qed.

(** ** What reaches the backend, and what comes back *)

(** X11: the message loses its surrounding white space and nothing else.
    With no history, the prompt that is sent is a part [p] of the message
    [m = l ++ p ++ r], where [l] and [r] are white space only and [p]
    begins and ends with a character that is not white space. *)
Theorem chat_strips_outer_whitespace (repr : json → pystr) (net : network)
    (d : gmap pystr json) (m : pystr) :
  d !! py "message" = Some (JStr m) →
  ¬ whitespace_only m →
  d !! py "history" = None →
  ∃ p l r,
    snd (chat repr (Ok (JDict d)) net) = [Post generate_url p 150] ∧
    m = l ++ prompt p ++ r ∧
    whitespace_only l ∧ whitespace_only r ∧
    (∃ c, head (prompt p) = Some c ∧ isspace c = false) ∧
    (∃ c, last (prompt p) = Some c ∧ isspace c = false).
Proof.
  intros Hm Hne Hh.
  assert (full_prompt repr (strip m) (history_of d) = Ok (strip m)) as Hfp.
  { unfold history_of. by rewrite Hh. }
  assert (strip m ≠ []) as Hs by (by intros ?%strip_nil).
  destruct (strip_split m) as (l & r & Hsplit & Hl & Hr).
  exists (payload (strip m)), l, r.
  rewrite (chat_query repr d m net _ _ Hm Hne
             (query_ollama_sent repr _ _ net _ Hfp)).
  repeat split; try done; [by apply strip_head|by apply strip_last].
Qed.

Lemma chat_strips_outer_whitespace_witness :
  let m := py "  What is  a mole? " in
  let d : gmap pystr json := {[ py "message" := JStr m ]} in
  d !! py "message" = Some (JStr m) ∧
  ¬ whitespace_only m ∧
  d !! py "history" = None ∧
  ∃ p l r,
    snd (chat sample_repr (Ok (JDict d))
           (backend_answering (Ok (generated (py "Hello")))))
    = [Post generate_url p 150] ∧
    m = l ++ prompt p ++ r ∧
    whitespace_only l ∧ whitespace_only r ∧
    (∃ c, head (prompt p) = Some c ∧ isspace c = false) ∧
    (∃ c, last (prompt p) = Some c ∧ isspace c = false).
Proof.
  assert (¬ whitespace_only (py "  What is  a mole? ")) as Hne.
  { intros H%strip_nil. vm_compute in H. discriminate. }
  split; [reflexivity|]. split; [exact Hne|]. split; [reflexivity|].
  apply (chat_strips_outer_whitespace _ _ _ (py "  What is  a mole? "));
    [reflexivity|exact Hne|reflexivity].
Defined.

Lemma Forall2_turn_line_length (msgs : list json) (lines : list pystr) :
  Forall2 turn_line msgs lines → Forall (λ x, (length x ≤ 309)%nat) lines.
Proof.
  induction 1 as [|msg line msgs lines H _ IH]; constructor; [|done].
  by eapply length_turn_line.
Qed.

(** X12: the history costs a bounded part of the prompt.  For a message [m]
    and a history whose last four entries are text turns, the prompt of the
    generate call has at most [1269 + length m] characters, however long
    the history and its turns are. *)
Theorem chat_prompt_length (repr : json → pystr) (net : network)
    (d : gmap pystr json) (m : pystr) (h : list json) :
  d !! py "message" = Some (JStr m) →
  ¬ whitespace_only m →
  d !! py "history" = Some (JList h) →
  h ≠ [] →
  Forall text_turn (drop (length h - 4) h) →
  ∃ p, snd (chat repr (Ok (JDict d)) net) = [Post generate_url p 150] ∧
       (length (prompt p) ≤ 1269 + length m)%nat.
Proof.
  intros Hm Hne Hh Hnil Hturns.
  destruct (full_prompt_text_turns repr (strip m) h Hnil Hturns)
    as (lines & Hlines & Hfp).
  assert (history_of d = JList h) as Hd by (unfold history_of; by rewrite Hh).
  rewrite <- Hd in Hfp.
  eexists. rewrite (chat_query repr d m net _ _ Hm Hne
                      (query_ollama_sent repr _ _ net _ Hfp)).
  split; [reflexivity|]. unfold payload. cbn [prompt].
  pose proof (Forall2_length _ _ _ Hlines) as Hlen.
  rewrite length_last_four in Hlen.
  pose proof (length_join_le (LF ++ LF) lines 309
                (Forall2_turn_line_length _ _ Hlines)) as Hjoin.
  pose proof (length_strip m) as Hstrip.
  rewrite !length_app.
  change (length (py "Recent context:")) with 15%nat.
  change (length (py "Student: ")) with 9%nat.
  change (length LF) with 1%nat in *.
  change (length (LF ++ LF)) with 2%nat in Hjoin.
  nia.
Qed.

Lemma chat_prompt_length_witness :
  let d : gmap pystr json := {[ py "message" := JStr (py "Why?");
                                py "history" := JList five_turns ]} in
  d !! py "message" = Some (JStr (py "Why?")) ∧
  ¬ whitespace_only (py "Why?") ∧
  d !! py "history" = Some (JList five_turns) ∧
  five_turns ≠ [] ∧
  Forall text_turn (drop (length five_turns - 4) five_turns) ∧
  ∃ p, snd (chat sample_repr (Ok (JDict d))
              (backend_answering (Ok (generated (py "Hello")))))
       = [Post generate_url p 150] ∧
       (length (prompt p) ≤ 1269 + length (py "Why?"))%nat.
Proof.
  assert (¬ whitespace_only (py "Why?")) as Hne.
  { intros H%strip_nil. vm_compute in H. discriminate. }
  assert (Forall text_turn (drop (length five_turns - 4) five_turns)) as Hturns.
  { repeat constructor; by eapply (TextTurn _ (JStr _) _). }
  split; [reflexivity|]. split; [exact Hne|]. split; [reflexivity|].
  split; [discriminate|]. split; [exact Hturns|].
  apply (chat_prompt_length _ _ _ (py "Why?") five_turns);
    [reflexivity|exact Hne|reflexivity|discriminate|exact Hturns].
Defined.

Lemma truthy_len (v : json) (n : Z) : len v = Ok n → truthy v = (0 <? n).
Proof.
  destruct v as [| | | |s|l|d]; try done; intros [= <-]; unfold truthy.
  - by destruct s.
  - by destruct l.
  - by destruct (size d).
Qed.

(** X13: the type of the backend's ['response'] is not checked.  When the
    generate call is answered with status 200 and an object whose
    ['response'] has a length (a string, an array or an object), the reply
    is a success that carries this value as it is when the length is not
    zero, and the failure reply when it is zero. *)
Theorem chat_sized_response (repr : json → pystr) (net : network)
    (req : result json) (url : pystr) (p : generate_payload) (t : Z)
    (r : response) (d : gmap pystr json) (v : json) (n : Z) :
  snd (chat repr req net) = [Post url p t] →
  http_post net url p t = Ok r →
  status_code r = 200 →
  json_body r = Ok (JDict d) →
  d !! py "response" = Some v →
  len v = Ok n →
  fst (chat repr req net)
  = Ok (if 0 <? n then success_reply v else failed_reply).
Proof.
  intros Htrace Hpost Hs Hb Hd Hlen.
  destruct (chat_post_inv repr req net url p t)
    as (d' & m & fp & -> & Hm & Hne & Hfp & -> & -> & ->).
  { rewrite Htrace. by apply list_elem_of_singleton. }
  rewrite (chat_query repr d' m net _ _ Hm Hne
             (query_ollama_sent repr _ _ net _ Hfp)).
  rewrite Hpost, Hs. cbn. rewrite Hb. cbn. rewrite Hd. cbn. rewrite Hlen. cbn.
  by rewrite (truthy_len v n Hlen).
Qed.

Lemma chat_sized_response_witness :
  let req := Ok (JDict {[ py "message" := JStr (py "Why?") ]}) in
  let parts := JList [JStr (py "Hello"); JInt 2] in
  let r := {| status_code := 200;
              json_body := Ok (JDict {[ py "response" := parts ]}) |} in
  let net := backend_answering (Ok r) in
  snd (chat sample_repr req net) = [Post generate_url (payload (py "Why?")) 150] ∧
  http_post net generate_url (payload (py "Why?")) 150 = Ok r ∧
  len parts = Ok 2 ∧
  fst (chat sample_repr req net) = Ok (success_reply parts).
Proof.
  assert (snd (chat sample_repr (Ok (JDict {[ py "message" := JStr (py "Why?") ]}))
                 (backend_answering
                    (Ok {| status_code := 200;
                           json_body := Ok (JDict {[ py "response" :=
                                    JList [JStr (py "Hello"); JInt 2] ]}) |})))
          = [Post generate_url (payload (py "Why?")) 150]) as Htrace
    by (vm_compute; reflexivity).
  split; [exact Htrace|]. split; [reflexivity|]. split; [reflexivity|].
  exact (chat_sized_response _ _ _ _ _ _ _ _ _ 2 Htrace eq_refl eq_refl eq_refl
           eq_refl eq_refl).
Defined.


(** The bound of X12 is reached: four turns of the student with 400
    characters each, and a message of one character. *)
Example chat_prompt_length_reached :
  ∃ p, snd (chat sample_repr
              (Ok (JDict {[ py "message" := JStr (py "x");
                            py "history" := JList long_turns ]}))
              (backend_answering (Raise Timeout)))
       = [Post generate_url p 150] ∧
       length (prompt p) = (1269 + 1)%nat.
Proof. eexists. split; vm_compute; reflexivity. Qed.

(** X15: [query_ollama] validates nothing itself.  Called without history
    ([None], the default of the parameter), it makes the generate call with
    its argument as the prompt, unchanged, be it empty or white space. *)
Theorem query_ollama_default_history (repr : json → pystr) (p : pystr)
    (net : network) :
  snd (query_ollama repr p JNull net) = [Post generate_url (payload p) 150] ∧
  prompt (payload p) = p.
Proof.
  split; [|done].
  by rewrite (query_ollama_sent repr p JNull net p (full_prompt_falsy repr p JNull eq_refl)).
Qed.



